(** * InputControl state reducer

    A shallow embedding of
    [packages/components/src/input-control/reducer/reducer.ts]:
    the state object of an input widget, the actions that are dispatched to
    it, the reducer built by [inputControlStateReducer] around a
    caller-supplied state reducer, and the layout effects with which
    [useInputControlStateReducer] keeps the widget and its [value] prop in
    step. *)

From Stdlib Require Import String Ascii ZArith List Bool Lia DecimalString.
From Stdlib Require Import Eqdep_dec.
Import ListNotations.
Local Open Scope string_scope.
Local Open Scope Z_scope.

(** ** JavaScript values *)

(** [Number.isSafeInteger( n )] on an integer: at most [2^53 - 1] in
    absolute value. *)
Definition isSafeInteger (n : Z) : bool := Z.abs n <=? 9007199254740991.

(** The numbers of the model are the safe integers (negative zero apart):
    each is a number of JavaScript in its own right, and its string form
    is its decimal numeral.  Other numbers, whose string form is the
    shortest digits that read back, or an exponent form from [1e21] on,
    are not values of the model. *)
Record SafeInteger : Type := mkSafeInteger {
  integer : Z;
  integer_safe : isSafeInteger integer = true
}.

(** The values that reach the [value] and [error] slots at run time.  The
    TypeScript signature says [string | undefined]; the reducer itself
    guards against anything else, so the other primitives are kept. *)
Inductive JsVal : Type :=
| JUndefined
| JNull
| JBool (b : bool)
| JNum (n : SafeInteger)
| JString (s : string).

(** [a === b] on primitives. *)
Definition strictEq (a b : JsVal) : bool :=
  match a, b with
  | JUndefined, JUndefined => true
  | JNull, JNull => true
  | JBool x, JBool y => Bool.eqb x y
  | JNum x, JNum y => Z.eqb (integer x) (integer y)
  | JString x, JString y => String.eqb x y
  | _, _ => false
  end.

(** [a !== b]. *)
Definition strictNeq (a b : JsVal) : bool := negb (strictEq a b).

(** The left operand of [??] or [??=] is replaced when it is [null] or
    [undefined]. *)
Definition isNullish (v : JsVal) : bool :=
  match v with
  | JUndefined | JNull => true
  | _ => false
  end.

(** [a ?? b]. *)
Definition nullish (a b : JsVal) : JsVal := if isNullish a then b else a.

(** The decimal numeral of an integer, with [-] in front of a negative
    one. *)
Definition decimal (n : Z) : string := NilZero.string_of_int (Z.to_int n).

(** [Number::toString] on a safe integer. *)
Definition numberToString (n : SafeInteger) : string := decimal (integer n).

(** The string a template literal [`${ v }`] evaluates to. *)
Definition templateLiteral (v : JsVal) : string :=
  match v with
  | JUndefined => "undefined"
  | JNull => "null"
  | JBool true => "true"
  | JBool false => "false"
  | JNum n => numberToString n
  | JString s => s
  end.


(** ** State *)

(** A handle on the DOM event that caused a dispatch.  [event.persist()]
    changes the event and not the widget, so it leaves no trace here. *)
Definition SyntheticEvent : Type := nat.

Record InputState : Type := mkInputState {
  error : JsVal;
  initialValue : JsVal;
  isDirty : bool;
  isDragging : bool;
  isPressEnterToChange : bool;
  value : JsVal
}.

(** [Partial< InputState >]: [None] is a key the object does not have. *)
Record PartialInputState : Type := mkPartialInputState {
  partial_error : option JsVal;
  partial_initialValue : option JsVal;
  partial_isDirty : option bool;
  partial_isDragging : option bool;
  partial_isPressEnterToChange : option bool;
  partial_value : option JsVal
}.

(** Field updates, [{ ...state, field }] or [nextState.field = x] on the
    copy the reducer works on. *)
Definition set_error (s : InputState) (x : JsVal) : InputState :=
  mkInputState x (initialValue s) (isDirty s) (isDragging s)
    (isPressEnterToChange s) (value s).

Definition set_initialValue (s : InputState) (x : JsVal) : InputState :=
  mkInputState (error s) x (isDirty s) (isDragging s)
    (isPressEnterToChange s) (value s).

Definition set_isDirty (s : InputState) (x : bool) : InputState :=
  mkInputState (error s) (initialValue s) x (isDragging s)
    (isPressEnterToChange s) (value s).

Definition set_isDragging (s : InputState) (x : bool) : InputState :=
  mkInputState (error s) (initialValue s) (isDirty s) x
    (isPressEnterToChange s) (value s).

Definition set_isPressEnterToChange (s : InputState) (x : bool) : InputState :=
  mkInputState (error s) (initialValue s) (isDirty s) (isDragging s)
    x (value s).

Definition set_value (s : InputState) (x : JsVal) : InputState :=
  mkInputState (error s) (initialValue s) (isDirty s) (isDragging s)
    (isPressEnterToChange s) x.

(** ** Actions *)

(** The payload object of a tagged action.  A key that is absent reads as
    [undefined], which is how the reducer reads it. *)
Record Payload : Type := mkPayload {
  payload_value : JsVal;
  payload_error : JsVal;
  payload_event : option SyntheticEvent
}.

(** An action either has a [type] key and a payload, or it is the bare
    object [{ value }] of a controlled update. *)
Inductive InputAction : Type :=
| Tagged (type : string) (payload : Payload)
| Untagged (value : JsVal).

Definition StateReducer : Type := InputState -> InputAction -> InputState.

(** The constants of [./actions].  The module is not among the sources at
    hand, so its strings are parameters of the development. *)
Record ActionTypes : Type := mkActionTypes {
  CHANGE : string;
  COMMIT : string;
  DRAG_END : string;
  DRAG_START : string;
  DRAG : string;
  INVALIDATE : string;
  PRESS_DOWN : string;
  PRESS_ENTER : string;
  PRESS_UP : string;
  RESET : string
}.

(** The tags the [switch] of the reducer has a [case] for, in its order. *)
Definition switchCases (actions : ActionTypes) : list string :=
  [ PRESS_UP actions; PRESS_DOWN actions; DRAG_START actions;
    DRAG_END actions; CHANGE actions; COMMIT actions; RESET actions;
    INVALIDATE actions ].

(** Modelled from the spec: [initialStateReducer] of [./state], which is
    not among the sources at hand; the default override is the identity
    function. *)
Definition initialStateReducer : StateReducer := fun state _ => state.

Section Reducer.

Variable actions : ActionTypes.

(** The default state of [./state], also not among the sources. *)
Variable initialInputControlState : InputState.

Definition toPartial (s : InputState) : PartialInputState :=
  mkPartialInputState (Some (error s)) (Some (initialValue s))
    (Some (isDirty s)) (Some (isDragging s))
    (Some (isPressEnterToChange s)) (Some (value s)).

(** [{ ...base, ...over }] *)
Definition spread (base : InputState) (over : PartialInputState) : InputState :=
  mkInputState
    (match partial_error over with Some x => x | None => error base end)
    (match partial_initialValue over with
     | Some x => x | None => initialValue base end)
    (match partial_isDirty over with Some x => x | None => isDirty base end)
    (match partial_isDragging over with
     | Some x => x | None => isDragging base end)
    (match partial_isPressEnterToChange over with
     | Some x => x | None => isPressEnterToChange base end)
    (match partial_value over with Some x => x | None => value base end).

(** [mergeInitialState]; the argument is [None] when the caller passes
    nothing and the default parameter steps in. *)
Definition mergeInitialState (arg : option PartialInputState) : InputState :=
  let initialState :=
    match arg with
    | Some p => p
    | None => toPartial initialInputControlState
    end in
  let value :=
    match partial_value initialState with
    | Some v => v
    | None => JUndefined
    end in
  set_initialValue (spread initialInputControlState initialState) value.

(** [inputControlStateReducer]. *)
Definition inputControlStateReducer
    (composedStateReducers : StateReducer) : StateReducer :=
  fun state action =>
    let nextState := state in
    match action with
    | Untagged v =>
        let value := match v with JUndefined => value state | _ => v end in
        let value := nullish value (JString "") in
        let value :=
          if strictNeq value (JString "")
          then JString (templateLiteral value)
          else value in
        set_value state value
    | Tagged type payload =>
        let nextState :=
          if String.eqb type (PRESS_UP actions) then
            set_isDirty nextState false
          else if String.eqb type (PRESS_DOWN actions) then
            set_isDirty nextState false
          else if String.eqb type (DRAG_START actions) then
            set_isDragging nextState true
          else if String.eqb type (DRAG_END actions) then
            set_isDragging nextState false
          else if String.eqb type (CHANGE actions) then
            let nextState := set_error nextState JNull in
            let nextState := set_value nextState (payload_value payload) in
            if isPressEnterToChange state
            then set_isDirty nextState true
            else nextState
          else if String.eqb type (COMMIT actions) then
            let nextState := set_value nextState (payload_value payload) in
            set_isDirty nextState false
          else if String.eqb type (RESET actions) then
            let nextState := set_error nextState JNull in
            let nextState := set_isDirty nextState false in
            set_value nextState
              (nullish (payload_value payload) (initialValue state))
          else if String.eqb type (INVALIDATE actions) then
            set_error nextState (payload_error payload)
          else nextState
        in
        composedStateReducers nextState action
    end.

(** The transition rules on their own: the reducer, with a bridge that
    hands [nextState] back as it is. *)
Definition transition : StateReducer :=
  inputControlStateReducer (fun nextState _ => nextState).

End Reducer.

(** ** The hook [useInputControlStateReducer] *)

(** What one instance of the hook holds between renders: the state of
    [useReducer], the three refs, and, for the two effects that have a
    dependency array, the dependency seen at the last commit ([None] before
    the first one). *)
Record Controller : Type := mkController {
  state : InputState;
  currentState : InputState;
  currentValueProp : JsVal;
  refEvent : option SyntheticEvent;
  depsStateValue : option JsVal;
  depsInitialValue : option JsVal
}.

(** A call [onChangeHandler( value, { event } )]. *)
Definition OnChangeCall : Type := (JsVal * SyntheticEvent)%type.

(** What the layout effects of one commit leave behind: the hook, the
    calls made to [onChangeHandler], and the actions handed to [dispatch]. *)
Record Commit : Type := mkCommit {
  after : Controller;
  onChangeCalls : list OnChangeCall;
  dispatched : list InputAction
}.

(** An effect with a dependency array runs on mount and whenever the
    dependency differs from the one of the previous commit. *)
Definition depsChanged (previous : option JsVal) (current : JsVal) : bool :=
  match previous with
  | None => true
  | Some old => strictNeq old current
  end.

(** [initialState.value] *)
Definition valueProp (initialState : PartialInputState) : JsVal :=
  match partial_value initialState with
  | Some v => v
  | None => JUndefined
  end.

(** The [stateReducer] parameter with its default. *)
Definition stateReducerArg (arg : option StateReducer) : StateReducer :=
  match arg with
  | Some f => f
  | None => initialStateReducer
  end.

Section Hook.

Variable actions : ActionTypes.
Variable initialInputControlState : InputState.

(** The state reducer the hook is called with, fixed over the life of
    the widget. *)
Variable stateReducer : StateReducer.

(** The [initialState] parameter with its default. *)
Definition initialStateArg (arg : option PartialInputState)
  : PartialInputState :=
  match arg with
  | Some p => p
  | None => toPartial initialInputControlState
  end.

(** The first render: [useReducer] and the three [useRef]. *)
Definition mount (arg : option PartialInputState) : Controller :=
  let initialState := initialStateArg arg in
  let state := mergeInitialState initialInputControlState (Some initialState) in
  mkController state state (valueProp initialState) None None None.

(** [dispatch( action )]: the reducer of [useReducer] gives the state of
    the next render. *)
Definition dispatch (action : InputAction) (c : Controller) : Controller :=
  mkController
    (inputControlStateReducer actions stateReducer (state c) action)
    (currentState c) (currentValueProp c) (refEvent c)
    (depsStateValue c) (depsInitialValue c).

Definition set_refEvent (c : Controller) (event : option SyntheticEvent)
  : Controller :=
  mkController (state c) (currentState c) (currentValueProp c) event
    (depsStateValue c) (depsInitialValue c).

Definition createChangeEvent (type : string) (nextValue : JsVal)
    (event : option SyntheticEvent) (c : Controller) : Controller :=
  dispatch (Tagged type (mkPayload nextValue JUndefined event))
    (set_refEvent c event).

Definition createKeyEvent (type : string)
    (event : option SyntheticEvent) (c : Controller) : Controller :=
  dispatch (Tagged type (mkPayload JUndefined JUndefined event))
    (set_refEvent c event).

Definition createDragEvent (type : string)
    (payload : Payload) (c : Controller) : Controller :=
  dispatch (Tagged type payload) (set_refEvent c (payload_event payload)).

Definition change := createChangeEvent (CHANGE actions).
Definition invalidate (error : JsVal) (event : option SyntheticEvent)
    (c : Controller) : Controller :=
  dispatch (Tagged (INVALIDATE actions) (mkPayload JUndefined error event))
    (set_refEvent c event).
Definition reset := createChangeEvent (RESET actions).
Definition commit := createChangeEvent (COMMIT actions).

Definition dragStart := createDragEvent (DRAG_START actions).
Definition drag := createDragEvent (DRAG actions).
Definition dragEnd := createDragEvent (DRAG_END actions).

Definition pressUp := createKeyEvent (PRESS_UP actions).
Definition pressDown := createKeyEvent (PRESS_DOWN actions).
Definition pressEnter := createKeyEvent (PRESS_ENTER actions).

(** First effect, no dependency array: the refs follow the render. *)
Definition effectRefs (initialState : PartialInputState) (c : Controller)
  : Controller :=
  mkController (state c) (state c) (valueProp initialState) (refEvent c)
    (depsStateValue c) (depsInitialValue c).

(** Second effect, on [[ state.value ]]: report the value to the owner. *)
Definition effectOnChange (c : Controller) : Controller * list OnChangeCall :=
  if depsChanged (depsStateValue c) (value (state c)) then
    let c :=
      mkController (state c) (currentState c) (currentValueProp c)
        (refEvent c) (Some (value (state c))) (depsInitialValue c) in
    match refEvent c with
    | Some event =>
        if strictNeq (value (state c)) (currentValueProp c)
           && negb (isDirty (currentState c))
        then (set_refEvent c None,
              [ (nullish (value (state c)) (JString ""), event) ])
        else (c, [])
    | None => (c, [])
    end
  else (c, []).

(** Third effect, on [[ initialState.value ]]: follow the [value] prop. *)
Definition effectSync (initialState : PartialInputState) (c : Controller)
  : Controller * list InputAction :=
  if depsChanged (depsInitialValue c) (valueProp initialState) then
    let c :=
      mkController (state c) (currentState c) (currentValueProp c)
        (refEvent c) (depsStateValue c) (Some (valueProp initialState)) in
    match refEvent c with
    | Some _ => (c, [])
    | None =>
        if strictNeq (valueProp initialState) (value (currentState c))
           && negb (isDirty (currentState c))
        then (c, [ Untagged (valueProp initialState) ])
        else (c, [])
    end
  else (c, []).

(** The layout effects of one commit, in the order they are declared. *)
Definition layoutEffects (initialState : PartialInputState) (c : Controller)
  : Commit :=
  let c := effectRefs initialState c in
  let '(c, calls) := effectOnChange c in
  let '(c, acts) := effectSync initialState c in
  mkCommit c calls acts.

(** A render with the props [initialState], followed to rest: an action
    dispatched from a layout effect is reduced and rendered again at
    once, with the same props.  [None] when [fuel] renders were not
    enough. *)
Fixpoint render (fuel : nat) (initialState : PartialInputState)
    (c : Controller) : option (Controller * list OnChangeCall) :=
  match fuel with
  | O => None
  | S fuel =>
      let r := layoutEffects initialState c in
      match dispatched r with
      | [] => Some (after r, onChangeCalls r)
      | acts =>
          match render fuel initialState
                  (fold_left (fun c a => dispatch a c) acts (after r)) with
          | Some (c', calls) => Some (c', (onChangeCalls r ++ calls)%list)
          | None => None
          end
      end
  end.

(** Successive renders, one per props object, with no event handler
    called in between. *)
Fixpoint renders (fuel : nat) (props : list PartialInputState)
    (c : Controller) : option (Controller * list OnChangeCall) :=
  match props with
  | [] => Some (c, [])
  | p :: props =>
      match render fuel p c with
      | Some (c', calls) =>
          match renders fuel props c' with
          | Some (c'', calls') => Some (c'', (calls ++ calls')%list)
          | None => None
          end
      | None => None
      end
  end.

End Hook.

(** The second effect runs at this commit: first render, or [state.value]
    is not the one of the previous render. *)
Definition effectOnChangeRuns (c : Controller) : bool :=
  depsChanged (depsStateValue c) (value (state c)).

Definition hasEvent (c : Controller) : bool :=
  match refEvent c with
  | Some _ => true
  | None => false
  end.

(** When a commit calls [onChangeHandler], as the hook has it: the effect
    runs, an event is recorded, the value is not the one the [value] prop of
    this render already has, and the state is not dirty. *)
Definition firesAsCoded (initialState : PartialInputState) (c : Controller)
  : bool :=
  effectOnChangeRuns c
  && hasEvent c
  && strictNeq (value (state c)) (valueProp initialState)
  && negb (isDirty (state c)).

(** The same, as the specification words it: the value changed since the
    last render, an event was recorded, the widget is not dirty. *)
Definition firesAsSpecified (c : Controller) : bool :=
  effectOnChangeRuns c && hasEvent c && negb (isDirty (state c)).

(** The props [{ value }] of a render. *)
Definition valueProps (v : JsVal) : PartialInputState :=
  mkPartialInputState None None None None None (Some v).

(** ** An override and an instance to run the model on *)

Definition parseNumber (s : string) : option Z :=
  option_map Z.of_int (NilZero.int_of_string s).

(** A state reducer of the kind a number field plugs in: whatever the
    action, a numeric [value] is brought back into [[0, 100]]. *)
Definition clampOverride : StateReducer :=
  fun state _ =>
    match value state with
    | JString s =>
        match parseNumber s with
        | Some n =>
            set_value state
              (JString (decimal (Z.max 0 (Z.min 100 n))))
        | None => state
        end
    | _ => state
    end.

(** Tags spelled like the constants that name them. *)
Definition sampleActions : ActionTypes :=
  mkActionTypes "CHANGE" "COMMIT" "DRAG_END" "DRAG_START" "DRAG"
    "INVALIDATE" "PRESS_DOWN" "PRESS_ENTER" "PRESS_UP" "RESET".

(** A default state with nothing entered and every flag off. *)
Definition sampleInitialState : InputState :=
  mkInputState JNull (JString "") false false false (JString "").

(** The payload [{ value, event }] the change, commit and reset
    dispatchers build. *)
Definition valuePayload (v : JsVal) (event : option SyntheticEvent) : Payload :=
  mkPayload v JUndefined event.

(** The [case] labels are pairwise different strings. *)
Definition distinctCases (actions : ActionTypes) : Prop :=
  NoDup (switchCases actions).

(** ** Shapes of values, tags and commits *)

(** [string | undefined], the type the signatures give to [value]. *)
Definition isStringOrUndefined (v : JsVal) : bool :=
  match v with
  | JString _ | JUndefined => true
  | _ => false
  end.

(** An action whose payload value has the type its signature gives it.
    The value of a controlled update may be anything: the reducer coerces
    it. *)
Definition typedAction (a : InputAction) : bool :=
  match a with
  | Tagged _ payload => isStringOrUndefined (payload_value payload)
  | Untagged _ => true
  end.

(** The ten tags the dispatchers of the hook use. *)
Definition allTags (actions : ActionTypes) : list string :=
  (switchCases actions ++ [ DRAG actions; PRESS_ENTER actions ])%list.

Definition distinctTags (actions : ActionTypes) : Prop :=
  NoDup (allTags actions).

(** The actions of one drag gesture: a start, [moves] moves, and the end
    unless the gesture is abandoned. *)
Definition dragGesture (actions : ActionTypes) (payload : Payload)
    (moves : nat) (ended : bool) : list InputAction :=
  (Tagged (DRAG_START actions) payload
   :: repeat (Tagged (DRAG actions) payload) moves
   ++ (if ended then [ Tagged (DRAG_END actions) payload ] else []))%list.

(** When a commit dispatches the controlled update, as the hook has it:
    the effect on [[ initialState.value ]] runs, no event is left pending
    by the effect before it, the prop is not the value the state has, and
    the state is not dirty. *)
Definition resyncs (initialState : PartialInputState) (c : Controller)
  : bool :=
  depsChanged (depsInitialValue c) (valueProp initialState)
  && negb (hasEvent c && negb (firesAsCoded initialState c))
  && strictNeq (valueProp initialState) (value (state c))
  && negb (isDirty (state c)).

(** The last commit of the hook saw this state and these props. *)
Definition settled (initialState : PartialInputState) (c : Controller)
  : Prop :=
  depsStateValue c = Some (value (state c))
  /\ depsInitialValue c = Some (valueProp initialState).

(** A hook at rest: mounted on the state [s] with the [value] prop
    [prop], rendered, no event pending. *)
Definition restingController (s : InputState) (prop : JsVal) : Controller :=
  mkController s s prop None (Some (value s)) (Some prop).

(** ** Basic facts *)

Lemma SafeInteger_eq (x y : SafeInteger) : integer x = integer y -> x = y.
Proof.
  destruct x as [x Hx], y as [y Hy]; simpl. intros ->.
  f_equal. apply (UIP_dec Bool.bool_dec).
Qed.

Lemma strictEq_refl (v : JsVal) : strictEq v v = true.
Proof.
  destruct v as [| |b|n|s]; simpl; auto.
  - now destruct b.
  - apply Z.eqb_refl.
  - apply String.eqb_refl.
Qed.

Lemma strictEq_eq (a b : JsVal) : strictEq a b = true <-> a = b.
Proof.
  split.
  - destruct a, b; simpl; try discriminate; auto; intros H.
    + apply Bool.eqb_prop in H. now subst.
    + apply Z.eqb_eq in H. f_equal. now apply SafeInteger_eq.
    + apply String.eqb_eq in H. now subst.
  - intros ->. apply strictEq_refl.
Qed.

Lemma strictNeq_neq (a b : JsVal) : strictNeq a b = true <-> a <> b.
Proof.
  unfold strictNeq. rewrite negb_true_iff, <- not_true_iff_false.
  now rewrite strictEq_eq.
Qed.

Lemma strictNeq_refl (v : JsVal) : strictNeq v v = false.
Proof. unfold strictNeq. now rewrite strictEq_refl. Qed.

Lemma sampleActions_distinct : distinctCases sampleActions.
Proof.
  unfold distinctCases, switchCases; simpl.
  repeat (constructor; [ simpl; intuition discriminate | ]).
  constructor.
Qed.

(** Splits [NoDup (x :: l)] into the inequalities it stands for. *)
Ltac split_cases H :=
  unfold distinctCases, switchCases in H;
  repeat
    (let Hx := fresh "Hneq" in
     apply NoDup_cons_iff in H; destruct H as [Hx H]; simpl in Hx).

(** Decides the [case] comparisons of the reducer one after the other. *)
Ltac run_switch :=
  repeat
    match goal with
    | |- context [String.eqb ?x ?y] =>
        destruct (String.eqb_spec x y);
        try (exfalso; intuition congruence);
        cbv iota
    end.

Section ReducerFacts.

Variable actions : ActionTypes.
Variable composedStateReducers : StateReducer.

Lemma reducer_untagged (s : InputState) (v : JsVal) :
  inputControlStateReducer actions composedStateReducers s (Untagged v)
  =
  set_value s
    (let v1 := match v with JUndefined => value s | _ => v end in
     let v2 := nullish v1 (JString "") in
     if strictNeq v2 (JString "") then JString (templateLiteral v2) else v2).
Proof. reflexivity. Qed.

Lemma reducer_PRESS_UP (s : InputState) (p : Payload) :
  inputControlStateReducer actions composedStateReducers s
    (Tagged (PRESS_UP actions) p) =
  composedStateReducers (set_isDirty s false) (Tagged (PRESS_UP actions) p).
Proof. unfold inputControlStateReducer. now rewrite String.eqb_refl. Qed.

Lemma reducer_default (s : InputState) (type : string) (p : Payload) :
  ~ In type (switchCases actions) ->
  inputControlStateReducer actions composedStateReducers s (Tagged type p)
  = composedStateReducers s (Tagged type p).
Proof.
  intros Hnot. unfold inputControlStateReducer.
  unfold switchCases in Hnot. simpl in Hnot.
  run_switch. reflexivity.
Qed.

Lemma reducer_PRESS_DOWN (s : InputState) (p : Payload) :
  inputControlStateReducer actions composedStateReducers s
    (Tagged (PRESS_DOWN actions) p) =
  composedStateReducers (set_isDirty s false) (Tagged (PRESS_DOWN actions) p).
Proof. unfold inputControlStateReducer. run_switch; reflexivity. Qed.

Hypothesis cases_distinct : distinctCases actions.

Lemma reducer_CHANGE (s : InputState) (p : Payload) :
  inputControlStateReducer actions composedStateReducers s
    (Tagged (CHANGE actions) p) =
  composedStateReducers
    (let next := set_value (set_error s JNull) (payload_value p) in
     if isPressEnterToChange s then set_isDirty next true else next)
    (Tagged (CHANGE actions) p).
Proof.
  pose proof cases_distinct as H. split_cases H.
  unfold inputControlStateReducer. run_switch. reflexivity.
Qed.

Lemma reducer_COMMIT (s : InputState) (p : Payload) :
  inputControlStateReducer actions composedStateReducers s
    (Tagged (COMMIT actions) p) =
  composedStateReducers
    (set_isDirty (set_value s (payload_value p)) false)
    (Tagged (COMMIT actions) p).
Proof.
  pose proof cases_distinct as H. split_cases H.
  unfold inputControlStateReducer. run_switch. reflexivity.
Qed.

Lemma reducer_RESET (s : InputState) (p : Payload) :
  inputControlStateReducer actions composedStateReducers s
    (Tagged (RESET actions) p) =
  composedStateReducers
    (set_value (set_isDirty (set_error s JNull) false)
       (nullish (payload_value p) (initialValue s)))
    (Tagged (RESET actions) p).
Proof.
  pose proof cases_distinct as H. split_cases H.
  unfold inputControlStateReducer. run_switch. reflexivity.
Qed.

Lemma reducer_INVALIDATE (s : InputState) (p : Payload) :
  inputControlStateReducer actions composedStateReducers s
    (Tagged (INVALIDATE actions) p) =
  composedStateReducers (set_error s (payload_error p))
    (Tagged (INVALIDATE actions) p).
Proof.
  pose proof cases_distinct as H. split_cases H.
  unfold inputControlStateReducer. run_switch. reflexivity.
Qed.

End ReducerFacts.

(** No rule writes [initialValue] or [isPressEnterToChange]. *)
Lemma transition_initialValue (actions : ActionTypes)
    (s : InputState) (a : InputAction) :
  initialValue (transition actions s a) = initialValue s.
Proof.
  unfold transition, inputControlStateReducer.
  destruct a as [type p | v]; [ | reflexivity ].
  run_switch; try reflexivity.
  now destruct (isPressEnterToChange s).
Qed.

Lemma transition_isPressEnterToChange (actions : ActionTypes)
    (s : InputState) (a : InputAction) :
  isPressEnterToChange (transition actions s a) = isPressEnterToChange s.
Proof.
  unfold transition, inputControlStateReducer.
  destruct a as [type p | v]; [ | reflexivity ].
  run_switch; try reflexivity.
  destruct (isPressEnterToChange s) eqn:E; simpl; auto.
Qed.

Lemma fold_transition_initialValue (actions : ActionTypes)
    (history : list InputAction) (s : InputState) :
  initialValue (fold_left (transition actions) history s) = initialValue s.
Proof.
  revert s. induction history as [| a history IH]; intros s; simpl.
  - reflexivity.
  - rewrite IH. apply transition_initialValue.
Qed.

(** The two coercion steps of a controlled update always end on a string. *)
Lemma coerce_string (v : JsVal) :
  (let v2 := nullish v (JString "") in
   if strictNeq v2 (JString "") then JString (templateLiteral v2) else v2)
  = JString (templateLiteral (nullish v (JString ""))).
Proof.
  destruct v as [| |b|n|s]; simpl; try reflexivity.
  unfold strictNeq; simpl.
  now destruct (String.eqb s "").
Qed.

(** The string form at the ends of the safe range, at zero and below it. *)
Example numberToString_runs :
  numberToString (mkSafeInteger 9007199254740991 eq_refl)
  = "9007199254740991"
  /\ numberToString (mkSafeInteger (-9007199254740991) eq_refl)
     = "-9007199254740991"
  /\ numberToString (mkSafeInteger 0 eq_refl) = "0"
  /\ isSafeInteger 9007199254740992 = false.
Proof. vm_compute. repeat split. Qed.

(** ** The transition rules *)

(** C1. A tagged action goes through the rules first and the caller's
    reducer second: the reducer built around [f] returns
    [f (transition s a) a]; the default [f] is the identity, so that the
    hook called without a reducer runs the rules alone.  With the
    clamping override, [change("150")] leaves ["150"] after the rules and
    ["100"] after the override, while clamping first and applying the rules
    second would leave ["150"]. *)
Theorem override_sees_post_base_state (actions : ActionTypes)
    (Hd : distinctCases actions) :
  (forall f s type payload,
      inputControlStateReducer actions f s (Tagged type payload)
      = f (transition actions s (Tagged type payload)) (Tagged type payload))
  /\ (forall s a,
        inputControlStateReducer actions (stateReducerArg None) s a
        = transition actions s a)
  /\ (forall s event,
        let a := Tagged (CHANGE actions) (valuePayload (JString "150") event) in
        value (transition actions s a) = JString "150"
        /\ value (inputControlStateReducer actions clampOverride s a)
           = JString "100"
        /\ value (transition actions (clampOverride s a) a) = JString "150").
Proof.
  split; [ | split ].
  - reflexivity.
  - reflexivity.
  - intros s event a. subst a. unfold transition.
    rewrite !reducer_CHANGE by assumption.
    unfold clampOverride; simpl.
    repeat split.
    + now destruct (isPressEnterToChange s).
    + now destruct (isPressEnterToChange s).
    + match goal with
      | |- context [isPressEnterToChange ?x] =>
          now destruct (isPressEnterToChange x)
      end.
Qed.

Lemma override_sees_post_base_state_witness :
  distinctCases sampleActions
  /\ value (inputControlStateReducer sampleActions clampOverride
              sampleInitialState
              (Tagged "CHANGE" (valuePayload (JString "150") (Some 1%nat))))
     = JString "100".
Proof.
  split.
  - exact sampleActions_distinct.
  - exact (proj1 (proj2 (proj2 (proj2
      (override_sees_post_base_state sampleActions sampleActions_distinct))
      sampleInitialState (Some 1%nat)))).
Defined.

(** C2. [change] clears [error], stores the payload value, and raises
    [isDirty] exactly when the state has [isPressEnterToChange] on; with it
    off [isDirty] stays as it was.  On the default state, whose two flags
    are off, [change("abc")] gives value ["abc"], not dirty, no error. *)
Theorem change_rule (actions : ActionTypes)
    (initialInputControlState : InputState)
    (Hd : distinctCases actions)
    (Henter : isPressEnterToChange initialInputControlState = false)
    (Hclean : isDirty initialInputControlState = false) :
  (forall s p,
      let s' := transition actions s (Tagged (CHANGE actions) p) in
      error s' = JNull
      /\ value s' = payload_value p
      /\ isDirty s' = (if isPressEnterToChange s then true else isDirty s))
  /\ (forall event,
        let s' :=
          transition actions (mergeInitialState initialInputControlState None)
            (Tagged (CHANGE actions) (valuePayload (JString "abc") event)) in
        value s' = JString "abc" /\ isDirty s' = false /\ error s' = JNull).
Proof.
  split.
  - intros s p s'. subst s'. unfold transition.
    rewrite reducer_CHANGE by assumption. cbv beta.
    destruct (isPressEnterToChange s); simpl; auto.
  - intros event s'. subst s'. unfold transition.
    rewrite reducer_CHANGE by assumption. cbv beta.
    unfold mergeInitialState; simpl. rewrite Henter. simpl. auto.
Qed.

Lemma change_rule_witness :
  distinctCases sampleActions
  /\ isPressEnterToChange sampleInitialState = false
  /\ isDirty sampleInitialState = false
  /\ (let s' :=
        transition sampleActions (mergeInitialState sampleInitialState None)
          (Tagged "CHANGE" (valuePayload (JString "abc") None)) in
      value s' = JString "abc" /\ isDirty s' = false /\ error s' = JNull).
Proof.
  split; [ exact sampleActions_distinct | ].
  split; [ reflexivity | ].
  split; [ reflexivity | ].
  exact (proj2 (change_rule sampleActions sampleInitialState
                  sampleActions_distinct eq_refl eq_refl) None).
Defined.

(** C3. [commit] is idempotent: a second [commit] of the same value
    changes nothing, and after one as after two the state is not dirty and
    holds the committed value. *)
Theorem commit_idempotent (actions : ActionTypes)
    (Hd : distinctCases actions)
    (s : InputState) (p1 p2 : Payload)
    (Hsame : payload_value p1 = payload_value p2) :
  let once := transition actions s (Tagged (COMMIT actions) p1) in
  let twice := transition actions once (Tagged (COMMIT actions) p2) in
  twice = once
  /\ isDirty once = false /\ value once = payload_value p1
  /\ isDirty twice = false /\ value twice = payload_value p1.
Proof.
  intros once twice. subst once twice. unfold transition.
  rewrite !reducer_COMMIT by assumption. cbv beta.
  rewrite <- Hsame. simpl. auto.
Qed.

Lemma commit_idempotent_witness :
  distinctCases sampleActions
  /\ (let s := mkInputState (JString "bad") (JString "10") true false true
                 (JString "1") in
      let p1 := valuePayload (JString "1") (Some 7%nat) in
      let p2 := valuePayload (JString "1") (Some 8%nat) in
      payload_value p1 = payload_value p2
      /\ transition sampleActions
           (transition sampleActions s (Tagged "COMMIT" p1))
           (Tagged "COMMIT" p2)
         = transition sampleActions s (Tagged "COMMIT" p1)).
Proof.
  split; [ exact sampleActions_distinct | ].
  split; [ reflexivity | ].
  exact (proj1 (commit_idempotent sampleActions sampleActions_distinct
           (mkInputState (JString "bad") (JString "10") true false true
              (JString "1"))
           (valuePayload (JString "1") (Some 7%nat))
           (valuePayload (JString "1") (Some 8%nat)) eq_refl)).
Defined.

(** C4. [reset] clears [error] and [isDirty] and takes the payload value,
    or [initialValue] when the payload has none.  [initialValue] is the
    [value] of the seed the state was built from, and no action changes it,
    so a [reset] without a value brings the seed value back whatever was
    dispatched in between. *)
Theorem reset_rule (actions : ActionTypes)
    (initialInputControlState : InputState)
    (Hd : distinctCases actions) :
  (forall s p,
      let s' := transition actions s (Tagged (RESET actions) p) in
      error s' = JNull
      /\ isDirty s' = false
      /\ value s' = (if isNullish (payload_value p)
                     then initialValue s
                     else payload_value p))
  /\ (forall seed,
        initialValue (mergeInitialState initialInputControlState (Some seed))
        = valueProp seed)
  /\ (forall seed history event,
        let s0 := mergeInitialState initialInputControlState (Some seed) in
        let s := fold_left (transition actions) history s0 in
        value (transition actions s
                 (Tagged (RESET actions) (valuePayload JUndefined event)))
        = initialValue s0).
Proof.
  split; [ | split ].
  - intros s p s'. subst s'. unfold transition.
    rewrite reducer_RESET by assumption. cbv beta.
    simpl. auto.
  - reflexivity.
  - intros seed history event s0 s. subst s. unfold transition at 1.
    rewrite reducer_RESET by assumption. cbv beta.
    simpl. apply fold_transition_initialValue.
Qed.

Lemma reset_rule_witness :
  distinctCases sampleActions
  /\ (let seed :=
        mkPartialInputState None None None None (Some true)
          (Some (JString "10")) in
      let history :=
        [ Tagged "CHANGE" (valuePayload (JString "1") (Some 1%nat));
          Tagged "CHANGE" (valuePayload (JString "12") (Some 2%nat)) ] in
      value (transition sampleActions
               (fold_left (transition sampleActions) history
                  (mergeInitialState sampleInitialState (Some seed)))
               (Tagged "RESET" (valuePayload JUndefined (Some 3%nat))))
      = JString "10").
Proof.
  split; [ exact sampleActions_distinct | ].
  exact (proj2 (proj2 (reset_rule sampleActions sampleInitialState
                         sampleActions_distinct))
           (mkPartialInputState None None None None (Some true)
              (Some (JString "10")))
           [ Tagged "CHANGE" (valuePayload (JString "1") (Some 1%nat));
             Tagged "CHANGE" (valuePayload (JString "12") (Some 2%nat)) ]
           (Some 3%nat)).
Defined.

(** C5. [invalidate] stores the payload error and leaves [value] and
    [isDirty] as they were. *)
Theorem invalidate_frame (actions : ActionTypes)
    (Hd : distinctCases actions) (s : InputState) (p : Payload) :
  let s' := transition actions s (Tagged (INVALIDATE actions) p) in
  error s' = payload_error p
  /\ value s' = value s
  /\ isDirty s' = isDirty s.
Proof.
  intros s'. subst s'. unfold transition.
  rewrite reducer_INVALIDATE by assumption. cbv beta.
  simpl. auto.
Qed.

Lemma invalidate_frame_witness :
  distinctCases sampleActions
  /\ (let s :=
        mkInputState JNull (JString "") true false true (JString "abc") in
      let p := mkPayload JUndefined (JString "must be numeric") (Some 4%nat) in
      let s' := transition sampleActions s (Tagged "INVALIDATE" p) in
      error s' = JString "must be numeric"
      /\ value s' = JString "abc"
      /\ isDirty s' = true).
Proof.
  split; [ exact sampleActions_distinct | ].
  exact (invalidate_frame sampleActions sampleActions_distinct
           (mkInputState JNull (JString "") true false true (JString "abc"))
           (mkPayload JUndefined (JString "must be numeric") (Some 4%nat))).
Defined.


(** C7. The transition function is a total function of the state and the
    action, and a tag the [switch] has no [case] for changes nothing: the
    rules return the state as it is, and the caller's reducer is handed
    that same state. *)
Theorem unrecognized_tag_is_identity (actions : ActionTypes)
    (s : InputState) (type : string) (p : Payload)
    (Hother : ~ In type (switchCases actions)) :
  transition actions s (Tagged type p) = s
  /\ (forall f,
        inputControlStateReducer actions f s (Tagged type p)
        = f s (Tagged type p))
  /\ (forall s0 a, exists s1, transition actions s0 a = s1).
Proof.
  split; [ | split ].
  - unfold transition. now rewrite reducer_default.
  - intros f. now rewrite reducer_default.
  - intros s0 a. now exists (transition actions s0 a).
Qed.

Lemma unrecognized_tag_is_identity_witness :
  ~ In "PRESS_ENTER" (switchCases sampleActions)
  /\ transition sampleActions sampleInitialState
       (Tagged "PRESS_ENTER" (mkPayload JUndefined JUndefined (Some 5%nat)))
     = sampleInitialState.
Proof.
  assert (Hother : ~ In "PRESS_ENTER" (switchCases sampleActions))
    by (simpl; intuition discriminate).
  split; [ exact Hother | ].
  exact (proj1 (unrecognized_tag_is_identity sampleActions sampleInitialState
                  "PRESS_ENTER" (mkPayload JUndefined JUndefined (Some 5%nat))
                  Hother)).
Defined.

(** C9. From a dirty state, [key-up], [key-down] and [commit] lead to a
    state that is not dirty, and [change] leads to one that still is; with
    [isPressEnterToChange] on, [change] leaves any state dirty. *)
Theorem dirty_until_committed (actions : ActionTypes)
    (Hd : distinctCases actions) (s : InputState) (p : Payload)
    (Hdirty : isDirty s = true) :
  isDirty (transition actions s (Tagged (PRESS_UP actions) p)) = false
  /\ isDirty (transition actions s (Tagged (PRESS_DOWN actions) p)) = false
  /\ isDirty (transition actions s (Tagged (COMMIT actions) p)) = false
  /\ isDirty (transition actions s (Tagged (CHANGE actions) p)) = true
  /\ (forall s0,
        isDirty (transition actions (set_isPressEnterToChange s0 true)
                   (Tagged (CHANGE actions) p)) = true).
Proof.
  unfold transition.
  split; [ | split; [ | split; [ | split ] ] ].
  - now rewrite reducer_PRESS_UP.
  - now rewrite reducer_PRESS_DOWN.
  - now rewrite reducer_COMMIT by assumption.
  - rewrite reducer_CHANGE by assumption.
    destruct (isPressEnterToChange s); simpl; auto.
  - intros s0. now rewrite reducer_CHANGE by assumption.
Qed.

Lemma dirty_until_committed_witness :
  distinctCases sampleActions
  /\ (let s :=
        mkInputState JNull (JString "10") true false true (JString "1") in
      let p := valuePayload (JString "1") (Some 6%nat) in
      isDirty s = true
      /\ isDirty (transition sampleActions s (Tagged "PRESS_UP" p)) = false
      /\ isDirty (transition sampleActions s (Tagged "PRESS_DOWN" p)) = false
      /\ isDirty (transition sampleActions s (Tagged "COMMIT" p)) = false
      /\ isDirty (transition sampleActions s (Tagged "CHANGE" p)) = true).
Proof.
  split; [ exact sampleActions_distinct | ].
  split; [ reflexivity | ].
  pose proof (dirty_until_committed sampleActions sampleActions_distinct
                (mkInputState JNull (JString "10") true false true
                   (JString "1"))
                (valuePayload (JString "1") (Some 6%nat)) eq_refl)
    as (Hup & Hdown & Hcommit & Hchange & _).
  exact (conj Hup (conj Hdown (conj Hcommit Hchange))).
Defined.

(** C10. [commit] leaves [error] alone.  Among all actions only [change]
    and [reset] clear it, and only [invalidate] writes it. *)
Theorem commit_keeps_error (actions : ActionTypes)
    (Hd : distinctCases actions) (s : InputState) (p : Payload) :
  error (transition actions s (Tagged (COMMIT actions) p)) = error s
  /\ (forall type,
        error (transition actions s (Tagged type p))
        = if String.eqb type (CHANGE actions) then JNull
          else if String.eqb type (RESET actions) then JNull
          else if String.eqb type (INVALIDATE actions) then payload_error p
          else error s)
  /\ (forall v, error (transition actions s (Untagged v)) = error s).
Proof.
  split; [ | split ].
  - unfold transition. rewrite reducer_COMMIT by assumption. reflexivity.
  - intros type. pose proof Hd as H. split_cases H.
    unfold transition, inputControlStateReducer.
    run_switch; try reflexivity.
    destruct (isPressEnterToChange s); reflexivity.
  - reflexivity.
Qed.

Lemma commit_keeps_error_witness :
  distinctCases sampleActions
  /\ error (transition sampleActions
              (mkInputState (JString "bad") (JString "") true false true
                 (JString "x"))
              (Tagged "COMMIT" (valuePayload (JString "y") (Some 9%nat))))
     = JString "bad".
Proof.
  split; [ exact sampleActions_distinct | ].
  exact (proj1 (commit_keeps_error sampleActions sampleActions_distinct
                  (mkInputState (JString "bad") (JString "") true false true
                     (JString "x"))
                  (valuePayload (JString "y") (Some 9%nat)))).
Defined.

(** ** The layout effects *)

Section HookFacts.

Variable actions : ActionTypes.
Variable stateReducer : StateReducer.

(** The calls of one commit, in closed form. *)
Lemma layoutEffects_calls (p : PartialInputState) (c : Controller) :
  onChangeCalls (layoutEffects p c) =
  match refEvent c with
  | Some event =>
      if firesAsCoded p c
      then [ (nullish (value (state c)) (JString ""), event) ]
      else []
  | None => []
  end.
Proof.
  unfold layoutEffects, effectOnChange, effectSync, effectRefs, firesAsCoded,
    effectOnChangeRuns, hasEvent, set_refEvent; simpl.
  destruct (depsChanged (depsStateValue c) (value (state c))); simpl;
    destruct (refEvent c); simpl;
    repeat
      match goal with
      | |- context [if ?b then _ else _] => destruct b; simpl
      end;
    reflexivity.
Qed.

(** The event ref after one commit: dropped when the callback ran. *)
Lemma layoutEffects_refEvent (p : PartialInputState) (c : Controller) :
  refEvent (after (layoutEffects p c)) =
  match onChangeCalls (layoutEffects p c) with
  | [] => refEvent c
  | _ :: _ => None
  end.
Proof.
  unfold layoutEffects, effectOnChange, effectSync, effectRefs,
    set_refEvent; simpl.
  destruct (depsChanged (depsStateValue c) (value (state c))); simpl;
    destruct (refEvent c); simpl;
    repeat
      match goal with
      | |- context [if ?b then _ else _] => destruct b; simpl
      end;
    reflexivity.
Qed.

(** The third effect dispatches at most one action, and only with no
    event pending. *)
Lemma layoutEffects_dispatched (p : PartialInputState) (c : Controller) :
  dispatched (layoutEffects p c) = []
  \/ (dispatched (layoutEffects p c) = [ Untagged (valueProp p) ]
      /\ refEvent (after (layoutEffects p c)) = None
      /\ isDirty (state c) = false).
Proof.
  unfold layoutEffects, effectOnChange, effectSync, effectRefs,
    set_refEvent; simpl.
  destruct (depsChanged (depsStateValue c) (value (state c))); simpl;
    destruct (refEvent c); simpl;
    repeat
      match goal with
      | |- context [if ?b then _ else _] => destruct b eqn:?; simpl
      end;
    auto;
    right; repeat split;
    match goal with
    | H : _ && negb (isDirty _) = true |- _ =>
        apply andb_true_iff in H; destruct H as [_ H];
        now apply negb_true_iff in H
    end.
Qed.

(** After a commit the third effect has seen the [value] prop. *)
Lemma layoutEffects_depsInitialValue (p : PartialInputState) (c : Controller) :
  depsChanged (depsInitialValue (after (layoutEffects p c))) (valueProp p)
  = false.
Proof.
  unfold layoutEffects, effectOnChange, effectSync, effectRefs,
    set_refEvent; simpl.
  destruct (depsChanged (depsStateValue c) (value (state c))); simpl;
    destruct (refEvent c); simpl;
    repeat
      match goal with
      | |- context [if ?b then _ else _] => destruct b eqn:?; simpl
      end;
    auto using strictNeq_refl.
Qed.

(** With the prop already seen, nothing is dispatched. *)
Lemma layoutEffects_seen (p : PartialInputState) (c : Controller) :
  depsChanged (depsInitialValue c) (valueProp p) = false ->
  dispatched (layoutEffects p c) = [].
Proof.
  intros Hseen.
  unfold layoutEffects, effectOnChange, effectSync, effectRefs,
    set_refEvent; simpl.
  destruct (depsChanged (depsStateValue c) (value (state c))); simpl;
    destruct (refEvent c); simpl;
    repeat
      match goal with
      | |- context [if ?b then _ else _] => destruct b eqn:?; simpl
      end;
    congruence.
Qed.

(** While the state is dirty a commit calls nothing and dispatches
    nothing. *)
Lemma layoutEffects_dirty (p : PartialInputState) (c : Controller) :
  isDirty (state c) = true ->
  onChangeCalls (layoutEffects p c) = []
  /\ dispatched (layoutEffects p c) = [].
Proof.
  intros Hdirty. split.
  - rewrite layoutEffects_calls. unfold firesAsCoded. rewrite Hdirty.
    rewrite !andb_false_r. now destruct (refEvent c).
  - destruct (layoutEffects_dispatched p c) as [H | (_ & _ & H)]; congruence.
Qed.

(** Two renders always bring the hook to rest, and only the first of
    them can call [onChangeHandler]. *)
Lemma render_rest (fuel : nat) (p : PartialInputState) (c : Controller) :
  exists c',
    render actions stateReducer (S (S fuel)) p c
    = Some (c', onChangeCalls (layoutEffects p c))
    /\ refEvent c' = refEvent (after (layoutEffects p c)).
Proof.
  cbn [render].
  destruct (layoutEffects_dispatched p c) as [Hnone | (Hone & Hevent & _)].
  - rewrite Hnone. eauto.
  - rewrite Hone. cbn [fold_left].
    set (c1 := dispatch actions stateReducer (Untagged (valueProp p))
                 (after (layoutEffects p c))).
    assert (Hseen : dispatched (layoutEffects p c1) = []).
    { apply layoutEffects_seen. unfold c1.
      apply layoutEffects_depsInitialValue. }
    assert (Hquiet : onChangeCalls (layoutEffects p c1) = []).
    { rewrite layoutEffects_calls. unfold c1. cbn [dispatch refEvent].
      now rewrite Hevent. }
    rewrite Hseen. exists (after (layoutEffects p c1)). split.
    + now rewrite Hquiet, app_nil_r.
    + rewrite layoutEffects_refEvent, Hquiet. unfold c1.
      cbn [dispatch refEvent]. now rewrite Hevent.
Qed.

(** Over any run of renders with no handler called in between, the
    callback runs at most once, and not at all with no event pending. *)
Lemma renders_calls (fuel : nat) (props : list PartialInputState) :
  forall c,
  exists c' calls,
    renders actions stateReducer (S (S fuel)) props c = Some (c', calls)
    /\ (length calls <= 1)%nat
    /\ (refEvent c = None -> calls = []).
Proof.
  induction props as [| p props IH]; intros c.
  - exists c, []. simpl. auto.
  - cbn [renders].
    destruct (render_rest fuel p c) as (c1 & Hrender & Hevent).
    rewrite Hrender.
    destruct (IH c1) as (c2 & calls & Hrest & Hlen & Hnone).
    rewrite Hrest. exists c2. eexists. split; [ reflexivity | ].
    rewrite layoutEffects_refEvent in Hevent.
    rewrite layoutEffects_calls in *.
    destruct (refEvent c) as [event |].
    + destruct (firesAsCoded p c); simpl in *.
      * rewrite (Hnone Hevent). simpl. split; [ lia | discriminate ].
      * split; [ assumption | discriminate ].
    + simpl in *. split; [ assumption | ]. intros _. now apply Hnone.
Qed.

End HookFacts.

(** C8. At a commit the change callback is called exactly when the effect
    on [state.value] runs (first render, or the value is not the one of
    the previous render), an event is recorded, the value is not the one
    the [value] prop of this render already has, and the state is not
    dirty.  It is called at most once per commit and at most once over any
    run of renders between two handler calls, and while the state is dirty
    nothing is called and nothing is dispatched. *)
Theorem onChange_policy (actions : ActionTypes) (stateReducer : StateReducer)
    (initialState : PartialInputState) (c : Controller) :
  let r := layoutEffects initialState c in
  (onChangeCalls r <> [] <-> firesAsCoded initialState c = true)
  /\ (firesAsCoded initialState c = true <->
      effectOnChangeRuns c = true
      /\ refEvent c <> None
      /\ value (state c) <> valueProp initialState
      /\ isDirty (state c) = false)
  /\ (length (onChangeCalls r) <= 1)%nat
  /\ (isDirty (state c) = true ->
      onChangeCalls r = [] /\ dispatched r = [])
  /\ (forall fuel props,
        exists c' calls,
          renders actions stateReducer (S (S fuel)) props c = Some (c', calls)
          /\ (length calls <= 1)%nat).
Proof.
  intros r. subst r.
  split; [ | split; [ | split; [ | split ] ] ].
  - rewrite layoutEffects_calls. unfold firesAsCoded, hasEvent.
    destruct (refEvent c) as [event |].
    + rewrite andb_true_r.
      destruct (effectOnChangeRuns c
                && strictNeq (value (state c)) (valueProp initialState)
                && negb (isDirty (state c))); split; congruence.
    + rewrite andb_false_r. simpl. split; congruence.
  - unfold firesAsCoded, hasEvent.
    rewrite !andb_true_iff, negb_true_iff, strictNeq_neq.
    destruct (refEvent c); intuition congruence.
  - rewrite layoutEffects_calls.
    destruct (refEvent c); [ destruct (firesAsCoded initialState c) | ];
      simpl; lia.
  - apply layoutEffects_dirty.
  - intros fuel props.
    destruct (renders_calls actions stateReducer fuel props c)
      as (c' & calls & Hrun & Hlen & _).
    eauto.
Qed.

(** C8, as the specification words it, fails: the widget shows ["1"], the
    user types ["2"] and the owner passes ["2"] as the [value] prop of the
    same render.  The value changed, an event is recorded and the state is
    not dirty, yet the callback is not called. *)
Lemma onChange_not_as_specified :
  exists c,
    render sampleActions initialStateReducer 2 (valueProps (JString "1"))
      (mount sampleInitialState (Some (valueProps (JString "1"))))
    = Some (c, [])
    /\ (let c0 :=
          change sampleActions initialStateReducer (JString "2") (Some 1%nat) c
        in
        firesAsSpecified c0 = true
        /\ onChangeCalls (layoutEffects (valueProps (JString "2")) c0) = []).
Proof.
  eexists. split.
  - vm_compute. reflexivity.
  - vm_compute. split; reflexivity.
Qed.

(** ** A widget in commit-on-enter mode

    Seeded with ["10"], the widget takes the edit ["1"] as provisional and
    tells its owner nothing; the commit that follows stores ["1"] for
    good. *)
Example commit_on_enter_run :
  let seed :=
    mkPartialInputState None None None None (Some true) (Some (JString "10")) in
  let s0 := mergeInitialState sampleInitialState (Some seed) in
  let s1 :=
    transition sampleActions s0
      (Tagged "CHANGE" (valuePayload (JString "1") (Some 1%nat))) in
  let s2 :=
    transition sampleActions s1
      (Tagged "COMMIT" (valuePayload (JString "1") (Some 2%nat))) in
  (value s1, isDirty s1) = (JString "1", true)
  /\ (value s2, isDirty s2) = (JString "1", false)
  /\ (let c :=
        change sampleActions initialStateReducer (JString "1") (Some 1%nat)
          (mount sampleInitialState (Some seed)) in
      onChangeCalls (layoutEffects seed c) = []).
Proof. vm_compute. repeat split. Qed.

(** ** More on the transition rules *)

Lemma transition_tagged_fold (actions : ActionTypes)
    (history : list InputAction) (s : InputState) (a : InputAction) :
  fold_left (transition actions) (history ++ [ a ])%list s
  = transition actions (fold_left (transition actions) history s) a.
Proof. now rewrite fold_left_app. Qed.

(** X1. Every action is idempotent under the transition rules: the same
    action dispatched a second time changes nothing, whether it is tagged,
    unhandled, or a controlled update. *)
Theorem transition_idempotent (actions : ActionTypes)
    (s : InputState) (a : InputAction) :
  transition actions (transition actions s a) a = transition actions s a.
Proof.
  destruct a as [type p | v].
  - unfold transition, inputControlStateReducer.
    run_switch; try reflexivity.
    destruct (isPressEnterToChange s) eqn:E; simpl; now rewrite ?E.
  - unfold transition. rewrite !reducer_untagged. cbv zeta.
    rewrite !coerce_string. simpl.
    destruct v; reflexivity.
Qed.

Lemma fold_transition_isPressEnterToChange (actions : ActionTypes)
    (history : list InputAction) (s : InputState) :
  isPressEnterToChange (fold_left (transition actions) history s)
  = isPressEnterToChange s.
Proof.
  revert s. induction history as [| a history IH]; intros s; simpl.
  - reflexivity.
  - rewrite IH. apply transition_isPressEnterToChange.
Qed.

(** X2. The commit-on-enter switch is configuration: whatever is
    dispatched, in whatever order, [isPressEnterToChange] keeps the value
    the state was built with, and so does [initialValue]. *)
Theorem configuration_is_fixed (actions : ActionTypes)
    (history : list InputAction) (s : InputState) :
  isPressEnterToChange (fold_left (transition actions) history s)
  = isPressEnterToChange s
  /\ initialValue (fold_left (transition actions) history s)
     = initialValue s.
Proof.
  split.
  - apply fold_transition_isPressEnterToChange.
  - apply fold_transition_initialValue.
Qed.

Lemma transition_clean (actions : ActionTypes)
    (s : InputState) (a : InputAction) :
  isPressEnterToChange s = false ->
  isDirty s = false ->
  isDirty (transition actions s a) = false.
Proof.
  intros Henter Hclean.
  unfold transition, inputControlStateReducer.
  destruct a as [type p | v]; [ | exact Hclean ].
  run_switch; try reflexivity; try exact Hclean.
  rewrite Henter. exact Hclean.
Qed.

(** X3. With commit-on-enter off, a state that is not dirty never becomes
    dirty, whatever is dispatched. *)
Theorem never_dirty_without_enter_mode (actions : ActionTypes)
    (history : list InputAction) (s : InputState)
    (Henter : isPressEnterToChange s = false)
    (Hclean : isDirty s = false) :
  isDirty (fold_left (transition actions) history s) = false.
Proof.
  revert s Henter Hclean.
  induction history as [| a history IH]; intros s Henter Hclean; simpl.
  - exact Hclean.
  - apply IH.
    + now rewrite transition_isPressEnterToChange.
    + now apply transition_clean.
Qed.

Lemma never_dirty_without_enter_mode_witness :
  isPressEnterToChange sampleInitialState = false
  /\ isDirty sampleInitialState = false
  /\ isDirty
       (fold_left (transition sampleActions)
          [ Tagged "CHANGE" (valuePayload (JString "1") (Some 1%nat));
            Untagged (JNum (mkSafeInteger 7 eq_refl));
            Tagged "INVALIDATE" (mkPayload JUndefined (JString "no") None) ]
          sampleInitialState)
     = false.
Proof.
  split; [ reflexivity | ]. split; [ reflexivity | ].
  exact (never_dirty_without_enter_mode sampleActions
           [ Tagged "CHANGE" (valuePayload (JString "1") (Some 1%nat));
             Untagged (JNum (mkSafeInteger 7 eq_refl));
             Tagged "INVALIDATE" (mkPayload JUndefined (JString "no") None) ]
           sampleInitialState eq_refl eq_refl).
Defined.

Lemma transition_typed (actions : ActionTypes)
    (s : InputState) (a : InputAction) :
  isStringOrUndefined (value s) = true ->
  isStringOrUndefined (initialValue s) = true ->
  typedAction a = true ->
  isStringOrUndefined (value (transition actions s a)) = true.
Proof.
  intros Hvalue Hinitial Htyped.
  destruct a as [type p | v].
  - simpl in Htyped.
    unfold transition, inputControlStateReducer.
    run_switch; simpl; try assumption.
    + now destruct (isPressEnterToChange s).
    + unfold nullish. now destruct (payload_value p).
  - unfold transition. rewrite reducer_untagged. cbv zeta.
    now rewrite coerce_string.
Qed.

(** X4. [value] stays a string or [undefined]: when the state starts with
    [value] and [initialValue] of that type and every tagged action carries
    a payload value of that type, every state reached has such a [value].
    A controlled update may carry anything. *)
Theorem value_stays_string (actions : ActionTypes)
    (history : list InputAction) (s : InputState)
    (Hvalue : isStringOrUndefined (value s) = true)
    (Hinitial : isStringOrUndefined (initialValue s) = true)
    (Htyped : forallb typedAction history = true) :
  isStringOrUndefined (value (fold_left (transition actions) history s))
  = true.
Proof.
  revert s Hvalue Hinitial Htyped.
  induction history as [| a history IH]; intros s Hvalue Hinitial Htyped.
  - exact Hvalue.
  - simpl in Htyped. apply andb_true_iff in Htyped.
    destruct Htyped as [Ha Hrest]. simpl. apply IH.
    + now apply transition_typed.
    + now rewrite transition_initialValue.
    + exact Hrest.
Qed.

Lemma value_stays_string_witness :
  let history :=
    [ Tagged "CHANGE" (valuePayload (JString "-") (Some 1%nat));
      Untagged (JNum (mkSafeInteger 12 eq_refl));
      Tagged "RESET" (valuePayload JUndefined None) ] in
  isStringOrUndefined (value sampleInitialState) = true
  /\ isStringOrUndefined (initialValue sampleInitialState) = true
  /\ forallb typedAction history = true
  /\ isStringOrUndefined
       (value (fold_left (transition sampleActions) history
                 sampleInitialState))
     = true.
Proof.
  split; [ reflexivity | ]. split; [ reflexivity | ].
  split; [ reflexivity | ].
  exact (value_stays_string sampleActions
           [ Tagged "CHANGE" (valuePayload (JString "-") (Some 1%nat));
             Untagged (JNum (mkSafeInteger 12 eq_refl));
             Tagged "RESET" (valuePayload JUndefined None) ]
           sampleInitialState eq_refl eq_refl eq_refl).
Defined.

Lemma distinctTags_cases (actions : ActionTypes) :
  distinctTags actions ->
  distinctCases actions
  /\ ~ In (DRAG actions) (switchCases actions)
  /\ ~ In (PRESS_ENTER actions) (switchCases actions).
Proof.
  unfold distinctTags, allTags. intros H.
  split; [ | split ].
  - now apply NoDup_app_remove_r in H.
  - apply NoDup_remove_2 in H. intros Hin. apply H.
    apply in_or_app. now left.
  - replace (switchCases actions ++ [ DRAG actions; PRESS_ENTER actions ])%list
      with ((switchCases actions ++ [ DRAG actions ])
            ++ PRESS_ENTER actions :: [])%list in H
      by now rewrite <- app_assoc.
    apply NoDup_remove_2 in H. intros Hin. apply H.
    rewrite app_nil_r. apply in_or_app. now left.
Qed.

Lemma fold_transition_moves (actions : ActionTypes) (p : Payload)
    (moves : nat) (s : InputState) :
  ~ In (DRAG actions) (switchCases actions) ->
  fold_left (transition actions) (repeat (Tagged (DRAG actions) p) moves) s
  = s.
Proof.
  intros Hdrag. induction moves as [| moves IH]; cbn [repeat fold_left].
  - reflexivity.
  - replace (transition actions s (Tagged (DRAG actions) p)) with s.
    + exact IH.
    + unfold transition. now rewrite reducer_default.
Qed.

(** X5. A drag gesture touches [isDragging] and nothing else: after start,
    any number of moves and the end, the state is the one before the
    gesture with [isDragging] off; a gesture left without its end leaves
    [isDragging] on. *)
Theorem drag_gesture (actions : ActionTypes)
    (Hd : distinctTags actions)
    (s : InputState) (p : Payload) (moves : nat) :
  fold_left (transition actions) (dragGesture actions p moves true) s
  = set_isDragging s false
  /\ fold_left (transition actions) (dragGesture actions p moves false) s
     = set_isDragging s true.
Proof.
  destruct (distinctTags_cases actions Hd) as (Hcases & Hdrag & _).
  assert (Hstart :
    transition actions s (Tagged (DRAG_START actions) p)
    = set_isDragging s true).
  { pose proof Hcases as H. split_cases H.
    unfold transition, inputControlStateReducer. run_switch. reflexivity. }
  unfold dragGesture. cbn [fold_left]. rewrite Hstart.
  rewrite !fold_left_app, !fold_transition_moves by assumption.
  split; [ | reflexivity ].
  cbn [fold_left].
  pose proof Hcases as H. split_cases H.
  unfold transition, inputControlStateReducer. run_switch. reflexivity.
Qed.

Lemma sampleActions_distinctTags : distinctTags sampleActions.
Proof.
  unfold distinctTags, allTags, switchCases; simpl.
  repeat (constructor; [ simpl; intuition discriminate | ]).
  constructor.
Qed.

Lemma drag_gesture_witness :
  distinctTags sampleActions
  /\ fold_left (transition sampleActions)
       (dragGesture sampleActions
          (mkPayload JUndefined JUndefined (Some 3%nat)) 2 true)
       (mkInputState JNull (JString "5") false true false (JString "5"))
     = mkInputState JNull (JString "5") false false false (JString "5").
Proof.
  split; [ exact sampleActions_distinctTags | ].
  exact (proj1 (drag_gesture sampleActions sampleActions_distinctTags
                  (mkInputState JNull (JString "5") false true false
                     (JString "5"))
                  (mkPayload JUndefined JUndefined (Some 3%nat)) 2%nat)).
Defined.

(** ** More on [mergeInitialState] *)

(** X6. A seed without a [value] key gives a state that shows the default
    value but has [undefined] as [initialValue]: a [reset] without a value
    then leaves [undefined], not the default, whatever came in between. *)
Theorem reset_without_seed_value (actions : ActionTypes)
    (initialInputControlState : InputState)
    (Hd : distinctCases actions)
    (seed : PartialInputState)
    (Hmissing : partial_value seed = None) :
  let s0 := mergeInitialState initialInputControlState (Some seed) in
  value s0 = value initialInputControlState
  /\ initialValue s0 = JUndefined
  /\ (forall history event,
        value (transition actions (fold_left (transition actions) history s0)
                 (Tagged (RESET actions) (valuePayload JUndefined event)))
        = JUndefined).
Proof.
  intros s0. subst s0.
  assert (Hinitial :
    initialValue (mergeInitialState initialInputControlState (Some seed))
    = JUndefined).
  { unfold mergeInitialState. simpl. now rewrite Hmissing. }
  split; [ | split ].
  - unfold mergeInitialState. simpl. now rewrite Hmissing.
  - exact Hinitial.
  - intros history event. unfold transition at 1.
    rewrite reducer_RESET by assumption. simpl.
    now rewrite fold_transition_initialValue.
Qed.

Lemma reset_without_seed_value_witness :
  let seed := mkPartialInputState None None None None (Some true) None in
  distinctCases sampleActions
  /\ partial_value seed = None
  /\ value (transition sampleActions
              (transition sampleActions
                 (mergeInitialState sampleInitialState (Some seed))
                 (Tagged "CHANGE" (valuePayload (JString "1") (Some 1%nat))))
              (Tagged "RESET" (valuePayload JUndefined None)))
     = JUndefined.
Proof.
  split; [ exact sampleActions_distinct | ].
  split; [ reflexivity | ].
  exact (proj2 (proj2
           (reset_without_seed_value sampleActions sampleInitialState
              sampleActions_distinct
              (mkPartialInputState None None None None (Some true) None)
              eq_refl))
           [ Tagged "CHANGE" (valuePayload (JString "1") (Some 1%nat)) ]
           None).
Defined.

(** ** More on the layout effects *)

(** Runs the three effects on a hook whose fields are spelled out. *)
Ltac run_effects :=
  unfold layoutEffects, effectOnChange, effectSync, effectRefs, resyncs,
    firesAsCoded, effectOnChangeRuns, hasEvent, set_refEvent;
  simpl;
  repeat
    match goal with
    | |- context [depsChanged ?d ?v] => destruct (depsChanged d v) eqn:?; simpl
    | |- context [refEvent ?c] => destruct (refEvent c) eqn:?; simpl
    | |- context [strictNeq ?a ?b] => destruct (strictNeq a b) eqn:?; simpl
    | |- context [isDirty ?s] => destruct (isDirty s) eqn:?; simpl
    end.

Lemma layoutEffects_state (p : PartialInputState) (c : Controller) :
  state (after (layoutEffects p c)) = state c.
Proof. run_effects; reflexivity. Qed.

(** The actions of one commit, in closed form. *)
Lemma layoutEffects_resyncs (p : PartialInputState) (c : Controller) :
  dispatched (layoutEffects p c)
  = if resyncs p c then [ Untagged (valueProp p) ] else [].
Proof. run_effects; try discriminate; try congruence; reflexivity. Qed.

Lemma depsChanged_seen (previous : option JsVal) (v : JsVal) :
  depsChanged previous v = false <-> previous = Some v.
Proof.
  destruct previous as [old |]; simpl.
  - split.
    + intros H. f_equal. apply strictEq_eq.
      unfold strictNeq in H. now apply negb_false_iff in H.
    + intros [= ->]. apply strictNeq_refl.
  - split; discriminate.
Qed.

(** After a commit the refs and the dependencies are those of the
    render. *)
Lemma layoutEffects_after (p : PartialInputState) (c : Controller) :
  let c' := after (layoutEffects p c) in
  currentState c' = state c
  /\ currentValueProp c' = valueProp p
  /\ depsStateValue c' = Some (value (state c))
  /\ depsInitialValue c' = Some (valueProp p).
Proof.
  cbv zeta. run_effects; repeat split;
    try (symmetry; now apply depsChanged_seen);
    now apply depsChanged_seen.
Qed.

(** A hook that has seen its state and its props does nothing at the next
    commit. *)
Lemma layoutEffects_quiet (p : PartialInputState) (c : Controller) :
  settled p c ->
  currentState c = state c ->
  currentValueProp c = valueProp p ->
  layoutEffects p c = mkCommit c [] [].
Proof.
  intros [Hvalue Hprop] Hstate Hcurrent.
  apply depsChanged_seen in Hvalue, Hprop.
  unfold layoutEffects, effectOnChange, effectSync, effectRefs; simpl.
  rewrite Hvalue. simpl. rewrite Hprop. simpl. f_equal.
  destruct c; simpl in *. now subst.
Qed.

Section RenderFacts.

Variable actions : ActionTypes.
Variable stateReducer : StateReducer.

(** A render brought to rest, in full: the calls are those of the first
    commit, the state is reduced once when that commit resyncs, and the
    hook has then seen its state and its props. *)
Lemma render_full (fuel : nat) (p : PartialInputState) (c : Controller) :
  exists c',
    render actions stateReducer (S (S fuel)) p c
    = Some (c', onChangeCalls (layoutEffects p c))
    /\ refEvent c' = refEvent (after (layoutEffects p c))
    /\ state c'
       = (if resyncs p c
          then inputControlStateReducer actions stateReducer (state c)
                 (Untagged (valueProp p))
          else state c)
    /\ settled p c'
    /\ currentState c' = state c'
    /\ currentValueProp c' = valueProp p.
Proof.
  cbn [render]. rewrite layoutEffects_resyncs.
  destruct (layoutEffects_after p c) as (Hcur & Hprop & Hdv & Hdp).
  destruct (resyncs p c) eqn:Hsync.
  - cbn [fold_left].
    set (c1 := dispatch actions stateReducer (Untagged (valueProp p))
                 (after (layoutEffects p c))).
    assert (Hevent : refEvent (after (layoutEffects p c)) = None).
    { destruct (layoutEffects_dispatched p c) as [Hnone | (_ & Hevent & _)].
      - rewrite layoutEffects_resyncs, Hsync in Hnone. discriminate.
      - exact Hevent. }
    assert (Hseen : resyncs p c1 = false).
    { unfold resyncs. unfold c1 at 1. cbn [dispatch depsInitialValue].
      rewrite Hdp. simpl. now rewrite strictNeq_refl. }
    assert (Hquiet : onChangeCalls (layoutEffects p c1) = []).
    { rewrite layoutEffects_calls. unfold c1. cbn [dispatch refEvent].
      now rewrite Hevent. }
    rewrite layoutEffects_resyncs, Hseen.
    exists (after (layoutEffects p c1)).
    destruct (layoutEffects_after p c1) as (Hcur1 & Hprop1 & Hdv1 & Hdp1).
    split; [ | split; [ | split; [ | split; [ | split ] ] ] ].
    + now rewrite Hquiet, app_nil_r.
    + rewrite layoutEffects_refEvent, Hquiet. unfold c1.
      cbn [dispatch refEvent]. now rewrite Hevent.
    + rewrite layoutEffects_state. unfold c1. cbn [dispatch state].
      now rewrite layoutEffects_state.
    + split; [ now rewrite layoutEffects_state | assumption ].
    + now rewrite layoutEffects_state.
    + assumption.
  - exists (after (layoutEffects p c)).
    split; [ | split; [ | split; [ | split; [ | split ] ] ] ].
    + reflexivity.
    + reflexivity.
    + apply layoutEffects_state.
    + split; [ now rewrite layoutEffects_state | assumption ].
    + now rewrite layoutEffects_state.
    + assumption.
Qed.

(** While the state is dirty, renders leave the hook's state and its
    pending event alone and call nothing. *)
Lemma renders_dirty (fuel : nat) (props : list PartialInputState) :
  forall c,
    isDirty (state c) = true ->
    exists c',
      renders actions stateReducer (S (S fuel)) props c = Some (c', [])
      /\ state c' = state c
      /\ refEvent c' = refEvent c.
Proof.
  induction props as [| p props IH]; intros c Hdirty.
  - exists c. simpl. auto.
  - cbn [renders].
    destruct (render_full fuel p c) as (c1 & Hrender & Hevent & Hstate & _).
    destruct (layoutEffects_dirty p c Hdirty) as [Hcalls Hnone].
    rewrite layoutEffects_resyncs in Hnone.
    destruct (resyncs p c); [ discriminate | ].
    rewrite layoutEffects_refEvent, Hcalls in Hevent.
    rewrite Hcalls in Hrender. rewrite Hrender.
    destruct (IH c1) as (c2 & Hrest & Hstate2 & Hevent2).
    { now rewrite Hstate. }
    rewrite Hrest. exists c2. repeat split; congruence.
Qed.

End RenderFacts.

Lemma strictNeq_sym (a b : JsVal) : strictNeq a b = strictNeq b a.
Proof.
  destruct (strictNeq b a) eqn:H.
  - apply strictNeq_neq. apply strictNeq_neq in H. congruence.
  - unfold strictNeq in *. apply negb_false_iff in H.
    apply strictEq_eq in H. subst. now rewrite strictEq_refl.
Qed.

Section HookRuns.

Variable actions : ActionTypes.
Variable stateReducer : StateReducer.

(** An event recorded with a dispatch that leaves [value] as it was stays
    pending: nothing is reported, and for as long as it is pending a new
    [value] prop is not taken over either. *)
Lemma unchanged_value_pends (fuel : nat) (p : PartialInputState)
    (c : Controller) (a : InputAction) (event : SyntheticEvent) :
  settled p c ->
  value (inputControlStateReducer actions stateReducer (state c) a)
  = value (state c) ->
  exists c',
    render actions stateReducer (S (S fuel)) p
      (dispatch actions stateReducer a (set_refEvent c (Some event)))
    = Some (c', [])
    /\ state c' = inputControlStateReducer actions stateReducer (state c) a
    /\ refEvent c' = Some event
    /\ (forall p2,
          exists c'',
            render actions stateReducer (S (S fuel)) p2 c' = Some (c'', [])
            /\ state c'' = state c'
            /\ refEvent c'' = Some event).
Proof.
  intros [Hdv Hdp] Hvalue.
  set (c1 := dispatch actions stateReducer a (set_refEvent c (Some event))).
  assert (Hruns : effectOnChangeRuns c1 = false).
  { unfold effectOnChangeRuns, c1.
    cbn [dispatch set_refEvent depsStateValue state].
    rewrite Hvalue. now apply depsChanged_seen. }
  assert (Hfires : forall q, firesAsCoded q c1 = false).
  { intros q. unfold firesAsCoded. now rewrite Hruns. }
  assert (Hsync : resyncs p c1 = false).
  { unfold resyncs, c1. cbn [dispatch set_refEvent depsInitialValue].
    apply depsChanged_seen in Hdp. now rewrite Hdp. }
  destruct (render_full actions stateReducer fuel p c1)
    as (c' & Hrender & Hevent & Hstate & [Hdv' Hdp'] & _).
  rewrite layoutEffects_calls, Hfires in Hrender.
  rewrite layoutEffects_refEvent, layoutEffects_calls, Hfires in Hevent.
  rewrite Hsync in Hstate.
  assert (Hpending : refEvent c' = Some event).
  { rewrite Hevent. reflexivity. }
  exists c'. split; [ | split; [ | split ] ].
  - rewrite Hrender. now destruct (refEvent c1).
  - exact Hstate.
  - exact Hpending.
  - intros p2.
    assert (Hruns' : effectOnChangeRuns c' = false).
    { unfold effectOnChangeRuns. now apply depsChanged_seen. }
    assert (Hfires' : firesAsCoded p2 c' = false).
    { unfold firesAsCoded. now rewrite Hruns'. }
    assert (Hsync' : resyncs p2 c' = false).
    { unfold resyncs, hasEvent. rewrite Hfires', Hpending. simpl.
      now rewrite andb_false_r. }
    destruct (render_full actions stateReducer fuel p2 c')
      as (c'' & Hrender2 & Hevent2 & Hstate2 & _).
    rewrite layoutEffects_calls, Hfires', Hpending in Hrender2.
    rewrite layoutEffects_refEvent, layoutEffects_calls, Hfires', Hpending
      in Hevent2.
    rewrite Hsync' in Hstate2.
    exists c''. repeat split; assumption.
Qed.

End HookRuns.

(** X7. A render always comes to rest within two commits, and a hook at
    rest is quiet: rendering it again with the same props calls nothing,
    dispatches nothing and leaves it as it is. *)
Theorem rerender_is_quiet (actions : ActionTypes)
    (stateReducer : StateReducer) (fuel : nat)
    (p : PartialInputState) (c : Controller) :
  exists c' calls,
    render actions stateReducer (S (S fuel)) p c = Some (c', calls)
    /\ layoutEffects p c' = mkCommit c' [] []
    /\ render actions stateReducer (S (S fuel)) p c' = Some (c', []).
Proof.
  destruct (render_full actions stateReducer fuel p c)
    as (c' & Hrender & _ & _ & Hsettled & Hstate & Hprop).
  exists c', (onChangeCalls (layoutEffects p c)).
  pose proof (layoutEffects_quiet p c' Hsettled Hstate Hprop) as Hquiet.
  split; [ exact Hrender | ]. split; [ exact Hquiet | ].
  cbn [render]. now rewrite Hquiet.
Qed.

(** X8. User input in flight wins: while the state is dirty, no run of
    renders, whatever props they bring, changes the state, drops the
    pending event or calls the owner. *)
Theorem dirty_is_silent (actions : ActionTypes)
    (stateReducer : StateReducer) (fuel : nat)
    (props : list PartialInputState) (c : Controller)
    (Hdirty : isDirty (state c) = true) :
  exists c',
    renders actions stateReducer (S (S fuel)) props c = Some (c', [])
    /\ state c' = state c
    /\ refEvent c' = refEvent c.
Proof. now apply renders_dirty. Qed.

Lemma dirty_is_silent_witness :
  let c :=
    change sampleActions initialStateReducer (JString "1") (Some 1%nat)
      (restingController
         (mkInputState JNull (JString "10") false false true (JString "10"))
         (JString "10")) in
  isDirty (state c) = true
  /\ exists c',
       renders sampleActions initialStateReducer 2
         [ valueProps (JString "10"); valueProps (JString "11") ] c
       = Some (c', [])
       /\ state c' = state c
       /\ refEvent c' = refEvent c.
Proof.
  split; [ reflexivity | ].
  exact (dirty_is_silent sampleActions initialStateReducer 0
           [ valueProps (JString "10"); valueProps (JString "11") ]
           (change sampleActions initialStateReducer (JString "1")
              (Some 1%nat)
              (restingController
                 (mkInputState JNull (JString "10") false false true
                    (JString "10"))
                 (JString "10")))
           eq_refl).
Defined.

(** X9. No event, no callback: after a dispatcher called without an
    event, no run of renders calls the owner, whatever the action did to
    the state and whatever event was pending before. *)
Theorem no_event_no_callback (actions : ActionTypes)
    (stateReducer : StateReducer) (fuel : nat)
    (props : list PartialInputState) (c : Controller)
    (type : string) (v error : JsVal) :
  (exists c',
      renders actions stateReducer (S (S fuel)) props
        (createChangeEvent actions stateReducer type v None c)
      = Some (c', []))
  /\ (exists c',
        renders actions stateReducer (S (S fuel)) props
          (createKeyEvent actions stateReducer type None c)
        = Some (c', []))
  /\ (exists c',
        renders actions stateReducer (S (S fuel)) props
          (createDragEvent actions stateReducer type (mkPayload v error None)
             c)
        = Some (c', []))
  /\ (exists c',
        renders actions stateReducer (S (S fuel)) props
          (invalidate actions stateReducer error None c)
        = Some (c', [])).
Proof.
  repeat split;
    match goal with
    | |- exists _, renders _ _ _ _ ?c1 = _ =>
        destruct (renders_calls actions stateReducer fuel props c1)
          as (c' & calls & Hrun & _ & Hnone);
        exists c'; now rewrite Hrun, (Hnone eq_refl)
    end.
Qed.

Lemma set_value_same (s : InputState) (v : JsVal) :
  value s = v -> set_value s v = s.
Proof. destruct s; simpl. now intros ->. Qed.

(** X10. The owner can push a value: with no event pending and the state
    not dirty, a string passed as a new [value] prop becomes the [value] of
    the state, nothing else in the state changes, the owner is not called
    back, and the state reducer the hook was given has no say. *)
Theorem resync_follows_prop (actions : ActionTypes)
    (stateReducer : StateReducer) (fuel : nat)
    (c : Controller) (t : string)
    (Hevent : refEvent c = None)
    (Hclean : isDirty (state c) = false)
    (Hnew : depsChanged (depsInitialValue c) (JString t) = true) :
  exists c',
    render actions stateReducer (S (S fuel)) (valueProps (JString t)) c
    = Some (c', [])
    /\ state c' = set_value (state c) (JString t)
    /\ refEvent c' = None.
Proof.
  destruct (render_full actions stateReducer fuel (valueProps (JString t)) c)
    as (c' & Hrender & Hevent' & Hstate & _).
  rewrite layoutEffects_calls, Hevent in Hrender.
  rewrite layoutEffects_refEvent, layoutEffects_calls, Hevent in Hevent'.
  exists c'. split; [ exact Hrender | ]. split; [ | exact Hevent' ].
  rewrite Hstate. unfold resyncs, hasEvent.
  change (valueProp (valueProps (JString t))) with (JString t).
  rewrite Hnew, Hevent, Hclean. cbn [andb negb].
  destruct (strictNeq (JString t) (value (state c))) eqn:Hdiff.
  - rewrite reducer_untagged. cbv zeta. now rewrite coerce_string.
  - symmetry. apply set_value_same.
    unfold strictNeq in Hdiff. apply negb_false_iff in Hdiff.
    now apply strictEq_eq in Hdiff.
Qed.

Lemma resync_follows_prop_witness :
  let c :=
    restingController
      (mkInputState (JString "bad") (JString "10") false false false
         (JString "10"))
      (JString "10") in
  refEvent c = None
  /\ isDirty (state c) = false
  /\ depsChanged (depsInitialValue c) (JString "150") = true
  /\ exists c',
       render sampleActions clampOverride 2 (valueProps (JString "150")) c
       = Some (c', [])
       /\ state c' = set_value (state c) (JString "150")
       /\ refEvent c' = None.
Proof.
  split; [ reflexivity | ]. split; [ reflexivity | ].
  split; [ reflexivity | ].
  exact (resync_follows_prop sampleActions clampOverride 0
           (restingController
              (mkInputState (JString "bad") (JString "10") false false false
                 (JString "10"))
              (JString "10"))
           "150" eq_refl eq_refl eq_refl).
Defined.

(** X11. A [value] prop that is [undefined] never clears the widget: when
    the state holds a string, a render whose props have no value leaves
    the state as it is, whether or not the controlled update is
    dispatched. *)
Theorem undefined_prop_keeps_value (actions : ActionTypes)
    (stateReducer : StateReducer) (fuel : nat)
    (p : PartialInputState) (c : Controller) (t : string)
    (Hprop : valueProp p = JUndefined)
    (Hvalue : value (state c) = JString t) :
  exists c' calls,
    render actions stateReducer (S (S fuel)) p c = Some (c', calls)
    /\ state c' = state c.
Proof.
  destruct (render_full actions stateReducer fuel p c)
    as (c' & Hrender & _ & Hstate & _).
  exists c', (onChangeCalls (layoutEffects p c)).
  split; [ exact Hrender | ].
  rewrite Hstate. destruct (resyncs p c); [ | reflexivity ].
  rewrite reducer_untagged, Hprop. cbv zeta. rewrite coerce_string.
  apply set_value_same. now rewrite Hvalue.
Qed.

Lemma undefined_prop_keeps_value_witness :
  let p := mkPartialInputState None None None None None None in
  let c :=
    restingController
      (mkInputState JNull (JString "abc") false false false (JString "abc"))
      (JString "abc") in
  valueProp p = JUndefined
  /\ value (state c) = JString "abc"
  /\ exists c' calls,
       render sampleActions initialStateReducer 2 p c = Some (c', calls)
       /\ state c' = state c.
Proof.
  split; [ reflexivity | ]. split; [ reflexivity | ].
  exact (undefined_prop_keeps_value sampleActions initialStateReducer 0
           (mkPartialInputState None None None None None None)
           (restingController
              (mkInputState JNull (JString "abc") false false false
                 (JString "abc"))
              (JString "abc"))
           "abc" eq_refl eq_refl).
Defined.

(** X12. When a value is reported in the very commit that brings a new
    [value] prop, the owner is called with the value of the state and the
    state is then set from the prop: what was reported does not stay. *)
Theorem report_then_resync (actions : ActionTypes)
    (stateReducer : StateReducer) (fuel : nat)
    (p : PartialInputState) (c : Controller) (event : SyntheticEvent)
    (Hevent : refEvent c = Some event)
    (Hfires : firesAsCoded p c = true)
    (Hnew : depsChanged (depsInitialValue c) (valueProp p) = true) :
  exists c',
    render actions stateReducer (S (S fuel)) p c
    = Some (c', [ (nullish (value (state c)) (JString ""), event) ])
    /\ state c' = transition actions (state c) (Untagged (valueProp p))
    /\ refEvent c' = None.
Proof.
  destruct (render_full actions stateReducer fuel p c)
    as (c' & Hrender & Hevent' & Hstate & _).
  rewrite layoutEffects_calls, Hevent, Hfires in Hrender.
  rewrite layoutEffects_refEvent, layoutEffects_calls, Hevent, Hfires
    in Hevent'.
  exists c'. split; [ exact Hrender | ]. split; [ | exact Hevent' ].
  rewrite Hstate.
  assert (Hsync : resyncs p c = true).
  { unfold resyncs. rewrite Hnew, Hfires.
    unfold firesAsCoded in Hfires.
    apply andb_true_iff in Hfires. destruct Hfires as [Hfires Hclean].
    apply andb_true_iff in Hfires. destruct Hfires as [_ Hdiff].
    rewrite strictNeq_sym, Hdiff, Hclean.
    now destruct (hasEvent c). }
  now rewrite Hsync.
Qed.

Lemma report_then_resync_witness :
  let c :=
    change sampleActions initialStateReducer (JString "2") (Some 1%nat)
      (restingController
         (mkInputState JNull (JString "1") false false false (JString "1"))
         (JString "1")) in
  let p := valueProps (JString "3") in
  refEvent c = Some 1%nat
  /\ firesAsCoded p c = true
  /\ depsChanged (depsInitialValue c) (valueProp p) = true
  /\ exists c',
       render sampleActions initialStateReducer 2 p c
       = Some (c', [ (nullish (value (state c)) (JString ""), 1%nat) ])
       /\ state c' = transition sampleActions (state c) (Untagged (valueProp p))
       /\ refEvent c' = None.
Proof.
  split; [ reflexivity | ]. split; [ reflexivity | ].
  split; [ reflexivity | ].
  exact (report_then_resync sampleActions initialStateReducer 0
           (valueProps (JString "3"))
           (change sampleActions initialStateReducer (JString "2")
              (Some 1%nat)
              (restingController
                 (mkInputState JNull (JString "1") false false false
                    (JString "1"))
                 (JString "1")))
           1%nat eq_refl eq_refl eq_refl).
Defined.

Lemma transition_value_frame (actions : ActionTypes)
    (s : InputState) (type : string) (p : Payload) :
  ~ In type [ CHANGE actions; COMMIT actions; RESET actions ] ->
  value (transition actions s (Tagged type p)) = value s.
Proof.
  intros Hother. simpl in Hother.
  unfold transition, inputControlStateReducer.
  run_switch; reflexivity.
Qed.

(** X13. A settled change is reported once: with commit-on-enter off, on
    a hook at rest that is not dirty, [change] with an event and a value
    that is neither the one of the state nor the one of the [value] prop
    makes the next render call the owner once, with that value ([""] for
    [undefined] or [null]) and that event; the event is then dropped and
    later renders call nothing. *)
Theorem change_reports_once (actions : ActionTypes)
    (Hd : distinctCases actions) (fuel : nat)
    (p : PartialInputState) (c : Controller)
    (v : JsVal) (event : SyntheticEvent)
    (Henter : isPressEnterToChange (state c) = false)
    (Hclean : isDirty (state c) = false)
    (Hsettled : settled p c)
    (Hnew : v <> value (state c))
    (Hprop : v <> valueProp p) :
  exists c',
    render actions initialStateReducer (S (S fuel)) p
      (change actions initialStateReducer v (Some event) c)
    = Some (c', [ (nullish v (JString ""), event) ])
    /\ value (state c') = v
    /\ refEvent c' = None
    /\ (forall props,
          exists c'',
            renders actions initialStateReducer (S (S fuel)) props c'
            = Some (c'', [])).
Proof.
  destruct Hsettled as [Hdv Hdp].
  set (c1 := change actions initialStateReducer v (Some event) c).
  assert (Hstate :
    state c1 = set_value (set_error (state c) JNull) v).
  { unfold c1, change, createChangeEvent. cbn [dispatch set_refEvent state].
    rewrite reducer_CHANGE by assumption. unfold initialStateReducer.
    cbn [payload_value]. now rewrite Henter. }
  assert (Hfires : firesAsCoded p c1 = true).
  { unfold firesAsCoded, effectOnChangeRuns, hasEvent. rewrite Hstate.
    unfold c1, change, createChangeEvent.
    cbn [dispatch set_refEvent depsStateValue refEvent].
    rewrite Hdv. simpl. rewrite Hclean.
    assert (H1 : strictNeq (value (state c)) v = true)
      by (apply strictNeq_neq; congruence).
    assert (H2 : strictNeq v (valueProp p) = true)
      by now apply strictNeq_neq.
    now rewrite H1, H2. }
  assert (Hsync : resyncs p c1 = false).
  { unfold resyncs, c1, change, createChangeEvent.
    cbn [dispatch set_refEvent depsInitialValue].
    apply depsChanged_seen in Hdp. now rewrite Hdp. }
  destruct (render_full actions initialStateReducer fuel p c1)
    as (c' & Hrender & Hevent & Hstate' & _).
  assert (Hpending : refEvent c1 = Some event) by reflexivity.
  rewrite layoutEffects_calls, Hpending, Hfires, Hstate in Hrender.
  rewrite layoutEffects_refEvent, layoutEffects_calls, Hpending, Hfires
    in Hevent.
  rewrite Hsync, Hstate in Hstate'.
  exists c'. split; [ exact Hrender | ].
  split; [ now rewrite Hstate' | ]. split; [ exact Hevent | ].
  intros props.
  destruct (renders_calls actions initialStateReducer fuel props c')
    as (c'' & calls & Hrun & _ & Hnone).
  exists c''. now rewrite Hrun, (Hnone Hevent).
Qed.

Lemma change_reports_once_witness :
  let c :=
    restingController
      (mkInputState JNull (JString "10") false false false (JString "10"))
      (JString "10") in
  let p := valueProps (JString "10") in
  distinctCases sampleActions
  /\ isPressEnterToChange (state c) = false
  /\ isDirty (state c) = false
  /\ settled p c
  /\ JString "1" <> value (state c)
  /\ JString "1" <> valueProp p
  /\ exists c',
       render sampleActions initialStateReducer 2 p
         (change sampleActions initialStateReducer (JString "1")
            (Some 4%nat) c)
       = Some (c', [ (nullish (JString "1") (JString ""), 4%nat) ])
       /\ value (state c') = JString "1"
       /\ refEvent c' = None
       /\ (forall props,
             exists c'',
               renders sampleActions initialStateReducer 2 props c'
               = Some (c'', [])).
Proof.
  assert (Hsettled :
    settled (valueProps (JString "10"))
      (restingController
         (mkInputState JNull (JString "10") false false false (JString "10"))
         (JString "10")))
    by (split; reflexivity).
  assert (Hdiff : JString "1" <> JString "10") by discriminate.
  split; [ exact sampleActions_distinct | ].
  split; [ reflexivity | ]. split; [ reflexivity | ].
  split; [ exact Hsettled | ].
  split; [ exact Hdiff | ]. split; [ exact Hdiff | ].
  exact (change_reports_once sampleActions sampleActions_distinct 0
           (valueProps (JString "10"))
           (restingController
              (mkInputState JNull (JString "10") false false false
                 (JString "10"))
              (JString "10"))
           (JString "1") 4%nat eq_refl eq_refl Hsettled Hdiff Hdiff).
Defined.

(** X14. Committing the value the state already holds, which is how a
    dirty edit ends in commit-on-enter mode, clears [isDirty] and reports
    nothing: the effect on [[ state.value ]] does not run.  The event of
    the commit stays pending, and while it does a new [value] prop is not
    taken over. *)
Theorem same_value_commit_is_silent (actions : ActionTypes)
    (Hd : distinctCases actions) (fuel : nat)
    (p : PartialInputState) (c : Controller) (event : SyntheticEvent)
    (Hsettled : settled p c) :
  exists c',
    render actions initialStateReducer (S (S fuel)) p
      (commit actions initialStateReducer (value (state c)) (Some event) c)
    = Some (c', [])
    /\ isDirty (state c') = false
    /\ value (state c') = value (state c)
    /\ refEvent c' = Some event
    /\ (forall p2,
          exists c'',
            render actions initialStateReducer (S (S fuel)) p2 c'
            = Some (c'', [])
            /\ state c'' = state c').
Proof.
  set (a := Tagged (COMMIT actions)
              (mkPayload (value (state c)) JUndefined (Some event))).
  assert (Hstate :
    inputControlStateReducer actions initialStateReducer (state c) a
    = set_isDirty (state c) false).
  { unfold a. rewrite reducer_COMMIT by assumption.
    unfold initialStateReducer. cbn [payload_value].
    now rewrite set_value_same. }
  destruct (unchanged_value_pends actions initialStateReducer fuel p c a
              event Hsettled)
    as (c' & Hrender & Hstate' & Hevent & Hlater).
  { now rewrite Hstate. }
  exists c'. rewrite Hstate in Hstate'.
  split; [ exact Hrender | ].
  split; [ now rewrite Hstate' | ].
  split; [ now rewrite Hstate' | ].
  split; [ exact Hevent | ].
  intros p2. destruct (Hlater p2) as (c'' & Hrender2 & Hstate2 & _).
  exists c''. now split.
Qed.

Lemma same_value_commit_is_silent_witness :
  let c :=
    mkController
      (mkInputState JNull (JString "10") true false true (JString "1"))
      (mkInputState JNull (JString "10") true false true (JString "1"))
      (JString "10") (Some 1%nat) (Some (JString "1")) (Some (JString "10")) in
  let p := valueProps (JString "10") in
  distinctCases sampleActions
  /\ settled p c
  /\ exists c',
       render sampleActions initialStateReducer 2 p
         (commit sampleActions initialStateReducer (value (state c))
            (Some 2%nat) c)
       = Some (c', [])
       /\ isDirty (state c') = false
       /\ value (state c') = value (state c)
       /\ refEvent c' = Some 2%nat
       /\ (forall p2,
             exists c'',
               render sampleActions initialStateReducer 2 p2 c'
               = Some (c'', [])
               /\ state c'' = state c').
Proof.
  assert (Hsettled :
    settled (valueProps (JString "10"))
      (mkController
         (mkInputState JNull (JString "10") true false true (JString "1"))
         (mkInputState JNull (JString "10") true false true (JString "1"))
         (JString "10") (Some 1%nat) (Some (JString "1"))
         (Some (JString "10"))))
    by (split; reflexivity).
  split; [ exact sampleActions_distinct | ].
  split; [ exact Hsettled | ].
  exact (same_value_commit_is_silent sampleActions sampleActions_distinct 0
           (valueProps (JString "10"))
           (mkController
              (mkInputState JNull (JString "10") true false true (JString "1"))
              (mkInputState JNull (JString "10") true false true (JString "1"))
              (JString "10") (Some 1%nat) (Some (JString "1"))
              (Some (JString "10")))
           2%nat Hsettled).
Defined.

(** X15. An event recorded with an action that does not write [value]
    (a key, a drag, an [invalidate], an unhandled tag) is never reported
    and stays pending; while it does, a new [value] prop is not taken over
    and the state stays as the action left it. *)
Theorem valueless_event_blocks_resync (actions : ActionTypes)
    (fuel : nat) (p : PartialInputState) (c : Controller)
    (type : string) (payload : Payload) (event : SyntheticEvent)
    (Hsettled : settled p c)
    (Hother : ~ In type [ CHANGE actions; COMMIT actions; RESET actions ]) :
  exists c',
    render actions initialStateReducer (S (S fuel)) p
      (dispatch actions initialStateReducer (Tagged type payload)
         (set_refEvent c (Some event)))
    = Some (c', [])
    /\ state c' = transition actions (state c) (Tagged type payload)
    /\ refEvent c' = Some event
    /\ (forall p2,
          exists c'',
            render actions initialStateReducer (S (S fuel)) p2 c'
            = Some (c'', [])
            /\ state c'' = state c'
            /\ refEvent c'' = Some event).
Proof.
  apply (unchanged_value_pends actions initialStateReducer fuel p c
           (Tagged type payload) event Hsettled).
  now apply transition_value_frame.
Qed.

Lemma valueless_event_blocks_resync_witness :
  let c :=
    restingController
      (mkInputState JNull (JString "abc") false false false (JString "abc"))
      (JString "abc") in
  let p := valueProps (JString "abc") in
  let payload :=
    mkPayload JUndefined (JString "must be numeric") (Some 5%nat) in
  settled p c
  /\ ~ In "INVALIDATE" [ "CHANGE"; "COMMIT"; "RESET" ]
  /\ exists c',
       render sampleActions initialStateReducer 2 p
         (invalidate sampleActions initialStateReducer
            (JString "must be numeric") (Some 5%nat) c)
       = Some (c', [])
       /\ state c' = transition sampleActions (state c)
                       (Tagged "INVALIDATE" payload)
       /\ refEvent c' = Some 5%nat
       /\ (forall p2,
             exists c'',
               render sampleActions initialStateReducer 2 p2 c'
               = Some (c'', [])
               /\ state c'' = state c'
               /\ refEvent c'' = Some 5%nat).
Proof.
  assert (Hsettled :
    settled (valueProps (JString "abc"))
      (restingController
         (mkInputState JNull (JString "abc") false false false
            (JString "abc"))
         (JString "abc")))
    by (split; reflexivity).
  assert (Hother : ~ In "INVALIDATE" [ "CHANGE"; "COMMIT"; "RESET" ])
    by (simpl; intuition discriminate).
  split; [ exact Hsettled | ]. split; [ exact Hother | ].
  exact (valueless_event_blocks_resync sampleActions 0
           (valueProps (JString "abc"))
           (restingController
              (mkInputState JNull (JString "abc") false false false
                 (JString "abc"))
              (JString "abc"))
           "INVALIDATE"
           (mkPayload JUndefined (JString "must be numeric") (Some 5%nat))
           5%nat Hsettled Hother).
Defined.
